(** * panel_code.py: the portfolio dashboard, embedded and verified

    A shallow embedding of [src/panel_code.py]: the holdings frame
    ([summary_data]), the cell-edit callback ([handle_cell_edit]), the two
    chart functions ([candlestick], [portfolio_distribution]), the price
    look-up ([last_close]) and the cell styler ([style_of_action_cell]).

    Python statements that read and write the module-level objects become
    computations in a state-and-exception monad over a [World]; a raised
    exception keeps the world as the statements before it left it, as in
    Python. *)

From Stdlib Require Import ZArith Lia Ascii.
From Stdlib Require Import PrimFloat SpecFloat FloatOps.
From stdpp Require Import base tactics option list strings gmap pretty.

Open Scope Z_scope.

(** ** Numbers

    The frame's [price] and [value] columns are numpy [float64]. The script
    multiplies them, sums a column and formats the sum. What the callback
    and the charts do with the cells does not depend on how these
    operations round, so the embedding takes the type and the operations as
    an interface; [binary64] below is the IEEE 754 instance, the arithmetic
    the script runs on, and what is said of the sum and of its printing is
    said of that instance. *)
Class Float64 := float64 : Type.

Class Float64Ops `{Float64} := {
  (** whether a Python [int] is in the range of [float64]: converting one
      that is not raises [OverflowError] *)
  f64_int_fits : Z -> bool;
  (** the conversion of an [int] operand of a [float64] product (of a
      Python [int] that is in range, of an [int64] cell) *)
  f64_of_int : Z -> float64;
  (** [x * y] on [float64] *)
  f64_mul : float64 -> float64 -> float64;
  (** [Series.sum()] of a [float64] column *)
  series_sum : list float64 -> float64;
  (** [format(x, ",.0f")] *)
  format_comma_0f : float64 -> string;
  (** the sum of an empty column is zero *)
  series_sum_nil : series_sum [] = f64_of_int 0;
}.

(** ** Exceptions and the monad *)

Inductive exn : Set :=
| KeyError
| IndexError
| TypeError
| OverflowError.

Inductive Result (A : Type) : Type :=
| Ok (a : A)
| Raise (e : exn).
Arguments Ok {A} a.
Arguments Raise {A} e.

#[global] Instance Result_ret : MRet Result := @Ok.
#[global] Instance Result_bind : MBind Result := fun A B f r =>
  match r with
  | Ok a => f a
  | Raise e => Raise e
  end.

Definition is_ok {A} (r : Result A) : bool :=
  match r with Ok _ => true | Raise _ => false end.

Section Dashboard.
Context {F64T : Float64} {F64 : Float64Ops}.

(** ** The data model *)

(** A row of [historical_data], the frame read from the CSV with the index
    [(Ticker, Date)]; the date is a day number. *)
Record HistRow := {
  Ticker : string;
  Date : Z;
  Open : float64;
  High : float64;
  Low : float64;
  Close : float64;
}.

(** A row of [summary_data]. The [info] column, a constant HTML link that no
    function of the script reads, is left out. The [quantity] column is an
    [int64] column. *)
Record Position := {
  ticker : string;
  company : string;
  quantity : Z;
  price : float64;
  value : float64;
  action : string;
  notes : string;
}.

(** A cell value as an edit event carries it: the number editor of
    [quantity] sends a number (or nothing when the cell is cleared), the
    editors of [action] and [notes] send text. *)
Inductive Cell :=
| CInt (z : Z)
| CFloat (x : float64)
| CStr (s : string)
| CNone.

(** Panel's [TableEditEvent], the argument of an [on_edit] callback. *)
Record TableEditEvent := {
  ev_column : string;
  ev_row : Z;
  ev_value : Cell;
}.

Definition edit (column : string) (row : Z) (v : Cell) : TableEditEvent :=
  {| ev_column := column; ev_row := row; ev_value := v |}.

(** An entry of the log of [Tabulator.patch] calls: column, row, new value. *)
Record Patch := {
  patch_column : string;
  patch_row : Z;
  patch_value : float64;
}.

(** The module-level objects the callbacks share.
    - [summary_data]: the frame; [summary_table.value] is the same object
      (the widget keeps the frame it is given and patches it in place), so
      the default argument [data=summary_data] of [candlestick] and
      [summary_table.value] are one field here.
    - [patches]: [patches.value], the [IntInput] counter.
    - [patch_log]: the calls of [table.patch] so far, oldest first. *)
Record World := {
  summary_data : list Position;
  patches : Z;
  patch_log : list Patch;
}.

Definition Py (A : Type) : Type := World -> Result A * World.

Definition ret {A} (a : A) : Py A := fun w => (Ok a, w).
Definition bind {A B} (m : Py A) (k : A -> Py B) : Py B := fun w =>
  match m w with
  | (Ok a, w') => k a w'
  | (Raise e, w') => (Raise e, w')
  end.
Definition lift {A} (r : Result A) : Py A := fun w => (r, w).

Notation "'let*' x := m 'in' k" := (bind m (fun x => k))
  (at level 10, x name, m at level 100, k at level 200,
   format "'[v' 'let*'  x  :=  m  'in' '/' k ']'").
Notation "m ;; k" := (bind m (fun _ => k))
  (at level 100, k at level 200, right associativity).

(** ** The frame *)

(** [data.loc[row]] on a frame with the default [RangeIndex]: the label is
    the position; a label that is negative or past the end raises
    [KeyError]. *)
Definition loc (data : list Position) (row : Z) : Result Position :=
  if decide (0 <= row) then
    match data !! Z.to_nat row with
    | Some p => Ok p
    | None => Raise KeyError
    end
  else Raise KeyError.

Definition set_value (v : float64) (p : Position) : Position :=
  {| ticker := ticker p; company := company p; quantity := quantity p;
     price := price p; value := v; action := action p; notes := notes p |}.

(** [data.loc[row, column]], the column given by its projection. *)
Definition loc_cell {A} (data : list Position) (row : Z) (column : Position -> A)
  : Result A :=
  p ← loc data row;
  Ok (column p).

(** [summary_table.value.loc[row, "price"]] *)
Definition read_price (row : Z) : Py float64 := fun w =>
  (loc_cell (summary_data w) row price, w).

(** [table.patch({"value": [(row, value)]})]: the widget resolves the row
    label in the frame's index (raising [KeyError] when it is absent) and
    assigns the cell in place; the call is logged. What else the widget
    does on a patch (sending it to the client, emitting events) is not
    part of the world; see [reconcile] for the events it might emit. *)
Definition patch_value_column (row : Z) (v : float64) : Py unit := fun w =>
  match loc (summary_data w) row with
  | Ok p =>
      (Ok tt,
       {| summary_data := <[Z.to_nat row := set_value v p]> (summary_data w);
          patches := patches w;
          patch_log := patch_log w ++
            [{| patch_column := "value"; patch_row := row; patch_value := v |}]
       |})
  | Raise e => (Raise e, w)
  end.

(** [patches.value += 1] *)
Definition incr_patches : Py unit := fun w =>
  (Ok tt,
   {| summary_data := summary_data w;
      patches := patches w + 1;
      patch_log := patch_log w |}).

(** [quantity * price] with [price] a [float64]: an [int] is converted,
    which raises [OverflowError] when it is out of the range of [float64];
    a [float] multiplies as it is; [str * float64] and [None * float64]
    raise [TypeError]. *)
Definition py_mul (quantity : Cell) (price : float64) : Result float64 :=
  match quantity with
  | CInt z =>
      if f64_int_fits z then Ok (f64_mul (f64_of_int z) price)
      else Raise OverflowError
  | CFloat x => Ok (f64_mul x price)
  | CStr _ => Raise TypeError
  | CNone => Raise TypeError
  end.

(** ** The edit callback *)

Definition handle_cell_edit (event : TableEditEvent) : Py unit :=
  let row := ev_row event in
  let column := ev_column event in
  if decide (column = "quantity") then
    let quantity := ev_value event in
    let* price := read_price row in
    let* value := lift (py_mul quantity price) in
    patch_value_column row value ;;
    incr_patches
  else ret tt.

(** ** Runs of the callback

    [summary_table.on_edit(handle_cell_edit)] registers the callback; the
    table widget calls it once per edit made in the client. [dispatch] is
    one such call: the world after it, whether it returned or raised (an
    exception is reported by the host and leaves the world as the callback
    left it). The widget's own write of the edited cell ([quantity],
    [action] or [notes]) comes before the call, touches neither [price] nor
    [value], and is not part of the callback. *)
Definition dispatch (event : TableEditEvent) (w : World) : World :=
  (handle_cell_edit event w).2.




(** The events of [events] handed to the callback one after the other. *)
Definition run_edits (events : list TableEditEvent) (w : World) : World :=
  foldl (fun w event => dispatch event w) w events.

(** Whether the callback, run on [event] in [w], takes its [quantity]
    branch and runs it to the end. *)
Definition processed (event : TableEditEvent) (w : World) : bool :=
  bool_decide (ev_column event = "quantity")
  && is_ok (handle_cell_edit event w).1.

(** How many events of [events] are processed when they are handed to the
    callback one after the other from [w]. *)
Fixpoint processed_count (events : list TableEditEvent) (w : World) : nat :=
  match events with
  | [] => O
  | event :: rest =>
      ((if processed event w then 1 else 0) +
       processed_count rest (dispatch event w))%nat
  end.

(** The same read off the event alone, for a frame of [n] rows: the column
    is [quantity], the row is in the frame and the new value is a number
    that multiplies with a [float64] (a [float], or an [int] in range). *)
Definition reconciles (n : nat) (event : TableEditEvent) : bool :=
  bool_decide (ev_column event = "quantity")
  && bool_decide (0 <= ev_row event < Z.of_nat n)
  && match ev_value event with
     | CInt z => f64_int_fits z
     | CFloat _ => true
     | CStr _ | CNone => false
     end.

(** What the [quantity] editor, a number editor with [min] 0 and [step] 1,
    sends for a whole number: a JavaScript number, so an integer that is
    not negative and in the range of [float64]. *)
Definition valid_quantity (q : Z) : Prop :=
  0 <= q /\ f64_int_fits q = true.

(** ** Historical data *)

(** [data.loc[ticker]] on the frame indexed by [(Ticker, Date)]: the rows of
    that ticker, in the frame's order; [KeyError] when there is none. *)
Definition loc_ticker (data : list HistRow) (t : string) : Result (list HistRow) :=
  match filter (fun r => Ticker r = t) data with
  | [] => Raise KeyError
  | rows => Ok rows
  end.

(** [series.iloc[-1]] *)
Definition iloc_last {A} (series : list A) : Result A :=
  match last series with
  | Some a => Ok a
  | None => Raise IndexError
  end.

Definition last_close (ticker : string) (data : list HistRow) : Result float64 :=
  rows ← loc_ticker data ticker;
  iloc_last (Close <$> rows).

(** Dates strictly increasing down a column. *)
Fixpoint increasing (dates : list Z) : bool :=
  match dates with
  | [] => true
  | d :: rest =>
      match rest with
      | [] => true
      | d' :: _ => bool_decide (d < d') && increasing rest
      end
  end.

(** ** The frame at start-up *)

Definition EQUITIES : list (string * string) :=
  [("AAPL", "Apple"); ("MSFT", "Microsoft"); ("AMZN", "Amazon");
   ("GOOGL", "Alphabet"); ("TSLA", "Tesla"); ("BRK-B", "Berkshire Hathaway");
   ("UNH", "United Health Group"); ("JNJ", "Johnson & Johnson")].

Definition EQUITY_LIST : list string := EQUITIES.*1.

Definition initial_quantity : list Z := [75; 40; 100; 50; 40; 60; 20; 40].

Definition initial_action : list string :=
  ["buy"; "sell"; "hold"; "hold"; "hold"; "hold"; "hold"; "hold"].

(** [get_value_series]: [data["quantity"] * data["price"]], row by row. *)
Definition get_value_series (data : list Position) : list float64 :=
  (fun p => f64_mul (f64_of_int (quantity p)) (price p)) <$> data.

(** [summary_data] as the script builds it: one row per equity with its last
    close as price, then the [value] column assigned from
    [get_value_series]. Until that assignment the column is [None]; the
    rows carry the price in its place, which [get_value_series] does not
    read. *)
Definition initial_summary_data (historical_data : list HistRow)
  : Result (list Position) :=
  prices ← mapM (fun t => last_close t historical_data) EQUITY_LIST;
  let rows :=
    zip_with (fun '(t, c) '(q, (p, a)) =>
                {| ticker := t; company := c; quantity := q; price := p;
                   value := p; action := a; notes := "" |})
             EQUITIES
             (zip initial_quantity (zip prices initial_action)) in
  Ok (zip_with set_value (get_value_series rows) rows).

(** ** The charts *)

(** What [candlestick] puts into its figure: the title and the five columns
    of the trace. The layout constants (template, colours) are left out. *)
Record CandlestickFigure := {
  title_text : string;
  trace_x : list Z;
  trace_open : list float64;
  trace_high : list float64;
  trace_low : list float64;
  trace_close : list float64;
}.

Definition candlestick (selection : list Z) (data : list Position)
    (historical_data : list HistRow) : Result CandlestickFigure :=
  sel ← match selection with
        | [] => Ok ("AAPL", "Apple")
        | index :: _ =>
            t ← loc_cell data index ticker;
            c ← loc_cell data index company;
            Ok (t, c)
        end;
  dff_ticker_hist ← loc_ticker historical_data sel.1;
  Ok {| title_text := sel.1 +:+ " " +:+ sel.2 +:+ " Daily Price";
        trace_x := Date <$> dff_ticker_hist;
        trace_open := Open <$> dff_ticker_hist;
        trace_high := High <$> dff_ticker_hist;
        trace_low := Low <$> dff_ticker_hist;
        trace_close := Close <$> dff_ticker_hist |}.

(** The figure [candlestick] builds once it has resolved the ticker [t], the
    company [c] and the ticker's historical rows. *)
Definition candlestick_figure (t c : string) (rows : list HistRow)
  : CandlestickFigure :=
  {| title_text := t +:+ " " +:+ c +:+ " Daily Price";
     trace_x := Date <$> rows;
     trace_open := Open <$> rows;
     trace_high := High <$> rows;
     trace_low := Low <$> rows;
     trace_close := Close <$> rows |}.

(** What [portfolio_distribution] puts into its figure: one sector per row
    ([values="value"], [names="ticker"]) and the title. The shares are
    computed by the renderer from the sector values; the function itself
    divides nothing. *)
Record PieFigure := {
  pie_values : list float64;
  pie_names : list string;
  pie_title : string;
}.

Definition portfolio_distribution (patches_arg : Z) : Py PieFigure := fun w =>
  let data := summary_data w in
  let portfolio_total := series_sum (value <$> data) in
  (Ok {| pie_values := value <$> data;
         pie_names := ticker <$> data;
         pie_title := "Portfolio Total $ " +:+ format_comma_0f portfolio_total |},
   w).

End Dashboard.

(** ** The styler of the [action] column *)

Definition RED : string := "#D94467".
Definition GREEN : string := "#5AD534".

Definition default_colors : gmap string string :=
  {[ "buy" := GREEN; "sell" := RED ]}.

(** [colors[value]] *)
Definition getitem (colors : gmap string string) (key : string) : Result string :=
  match colors !! key with
  | Some c => Ok c
  | None => Raise KeyError
  end.

Definition style_of_action_cell (value : string) (colors : gmap string string)
  : Result string :=
  if decide (value ∈ dom colors) then
    c ← getitem colors value;
    Ok ("color: " +:+ c)
  else Ok "".

(** ** The IEEE 754 instance

    [float64] as the kernel's binary64 floats: the product and the sum of
    two floats are the correctly rounded ones, an [int] converts by rounding
    to nearest-even and is out of range when that gives an infinity, and
    [",.0f"] prints the float rounded half-to-even to an integer with the
    digits grouped by three. *)
Module Binary64.

(** The float nearest to [z], for a [z] in range ([fits]); past the range
    the rounding gives an infinity, where Python raises instead. *)
Definition of_int (z : Z) : float :=
  SF2Prim (binary_normalize 53 1024 z 0 false).

(** Whether [float(z)] is a finite float rather than an [OverflowError]. *)
Definition fits (z : Z) : bool :=
  negb (PrimFloat.is_infinity (of_int z)).

(** *** The sum of a column

    [Series.sum()] skips the NaNs by putting zeros in their place and hands
    the column to numpy's [add.reduce], which adds to the zero it starts
    from the pairwise sum of the column: fewer than 8 entries are added
    from the top down; up to 128 are added into 8 running sums, entry [i]
    into sum [i mod 8], the 8 sums are added in pairs and the entries left
    over when the length is no multiple of 8 are added last; a longer
    column is cut in two at a multiple of 8 near the middle. *)

Definition fillna (column : list float) : list float :=
  (fun x => if PrimFloat.is_nan x then 0%float else x) <$> column.

Definition sum_seq (acc : float) (entries : list float) : float :=
  foldl PrimFloat.add acc entries.

(** The running sums [r] after the groups of 8 at the head of [entries]
    have been added to them, and the entries left over. *)
Fixpoint add_groups (fuel : nat) (r entries : list float)
  : list float * list float :=
  match fuel with
  | O => (r, entries)
  | S fuel' =>
      if decide (8 <= length entries)%nat then
        add_groups fuel' (zip_with PrimFloat.add r (take 8 entries))
                   (drop 8 entries)
      else (r, entries)
  end.

(** A block of 8 to 128 entries. *)
Definition sum_block (entries : list float) : float :=
  match add_groups (length entries) (take 8 entries) (drop 8 entries) with
  | ([r0; r1; r2; r3; r4; r5; r6; r7], rest) =>
      sum_seq (((r0 + r1) + (r2 + r3)) + ((r4 + r5) + (r6 + r7)))%float rest
  | _ => 0%float
  end.

Fixpoint pairwise_sum (fuel : nat) (entries : list float) : float :=
  let n := length entries in
  if decide (n < 8)%nat then sum_seq 0%float entries
  else if decide (n <= 128)%nat then sum_block entries
  else
    match fuel with
    | O => sum_block entries
    | S fuel' =>
        let n2 := (n / 2 - (n / 2) mod 8)%nat in
        (pairwise_sum fuel' (take n2 entries)
         + pairwise_sum fuel' (drop n2 entries))%float
    end.

Definition sum (column : list float) : float :=
  (0 + pairwise_sum (length column) (fillna column))%float.

(** [m * 2^e] rounded to an integer, ties to even ([0 <= m]). *)
Definition round_half_even (m e : Z) : Z :=
  if decide (0 <= e) then m * 2 ^ e
  else
    let d := 2 ^ (- e) in
    let q := m / d in
    let r := m mod d in
    if decide (2 * r < d) then q
    else if decide (d < 2 * r) then q + 1
    else if Z.even q then q else q + 1.

(** Commas into a reversed digit string: [k] digits of the current group are
    already out. *)
Fixpoint group_rev (digits : list ascii) (k : nat) : list ascii :=
  match digits with
  | [] => []
  | d :: rest =>
      if decide (k = 3%nat) then ","%char :: d :: group_rev rest 1
      else d :: group_rev rest (S k)
  end.

Definition with_commas (n : Z) : string :=
  String.string_of_list_ascii
    (reverse (group_rev (reverse (String.list_ascii_of_string (pretty n))) 0)).

Definition format_0f (x : float) : string :=
  match Prim2SF x with
  | S754_zero s => if s then "-0" else "0"
  | S754_infinity s => if s then "-inf" else "inf"
  | S754_nan => "nan"
  | S754_finite s m e =>
      (if s then "-" else "") +:+ with_commas (round_half_even (Z.pos m) e)
  end.

End Binary64.

#[global] Instance binary64 : Float64 := float.

#[global] Instance binary64_ops : Float64Ops := {|
  f64_int_fits := Binary64.fits;
  f64_of_int := Binary64.of_int;
  f64_mul := PrimFloat.mul;
  series_sum := Binary64.sum;
  format_comma_0f := Binary64.format_0f;
  series_sum_nil := eq_refl;
|}.

(** ** A small dashboard to run the definitions on *)

Definition hist_row (t : string) (d : Z) (o h l c : float) : HistRow :=
  {| Ticker := t; Date := d; Open := o; High := h; Low := l; Close := c |}.

(** Two days of AAPL and MSFT and one day of each other equity. *)
Definition demo_history : list HistRow :=
  [hist_row "AAPL" 1 10 11 9.5 10.5; hist_row "AAPL" 2 10.5 12 10 11.25;
   hist_row "MSFT" 1 19 20.5 19 20; hist_row "MSFT" 2 20 21.5 20 21;
   hist_row "AMZN" 1 3 3 3 3; hist_row "GOOGL" 1 4 4 4 4;
   hist_row "TSLA" 1 5 5 5 5; hist_row "BRK-B" 1 6 6 6 6;
   hist_row "UNH" 1 7 7 7 7; hist_row "JNJ" 1 8 9 8 8.5]%float.

Definition frame_of (r : Result (list Position)) : list Position :=
  match r with
  | Ok data => data
  | Raise _ => []
  end.

Definition demo_world : World :=
  {| summary_data := frame_of (initial_summary_data demo_history);
     patches := 0;
     patch_log := [] |}.


(** The frame of [demo_world] with another counter and a patch on record. *)
Definition counted_world : World :=
  {| summary_data := summary_data demo_world;
     patches := 7;
     patch_log :=
       [{| patch_column := "value"; patch_row := 3;
           patch_value := 200%float |}] |}.

(** The historical frame with the rows of AAPL only. *)
Definition aapl_history : list HistRow :=
  [hist_row "AAPL" 1 10 11 9.5 10.5; hist_row "AAPL" 2 10.5 12 10 11.25]%float.

(** Two quantity edits with an edit of [notes] in between. *)
Definition demo_edits : list TableEditEvent :=
  [edit "quantity" 0 (CInt 10); edit "notes" 0 (CStr "watch");
   edit "quantity" 1 (CInt 5)].

(** Events none of which is processed: two edits of other columns and a
    quantity edit on a row that is not in the frame. *)
Definition idle_edits : list TableEditEvent :=
  [edit "notes" 0 (CStr "watch"); edit "quantity" 9 (CInt 5);
   edit "action" 1 (CStr "hold")].

(** * Properties *)

Section Properties.
Context {F64T : Float64} {F64 : Float64Ops}.

Implicit Types (w : World) (event : TableEditEvent) (data : list Position).

(** ** The frame *)

Lemma loc_Ok data row p :
  loc data row = Ok p <-> 0 <= row /\ data !! Z.to_nat row = Some p.
Proof.
  unfold loc. destruct (decide (0 <= row)) as [Hr|Hr].
  - destruct (data !! Z.to_nat row) eqn:E; split.
    + intros [= ->]. done.
    + intros [_ [= ->]]. done.
    + done.
    + intros [_ [=]].
    - split; [done | intros [? _]; lia].
Qed.

Lemma loc_in_range data row :
  is_ok (loc data row) = bool_decide (0 <= row < Z.of_nat (length data)).
Proof.
  unfold loc. destruct (decide (0 <= row)) as [Hr|Hr].
  - destruct (data !! Z.to_nat row) eqn:E; simpl.
    + apply lookup_lt_Some in E. symmetry. apply bool_decide_eq_true. lia.
    + apply lookup_ge_None in E. symmetry. apply bool_decide_eq_false. lia.
  - symmetry. apply bool_decide_eq_false. lia.
Qed.

Lemma loc_insert_same data row p p' :
  loc data row = Ok p ->
  loc (<[Z.to_nat row := p']> data) row = Ok p'.
Proof.
  intros [Hr Hp]%loc_Ok. apply loc_Ok. split; [done|].
  apply list_lookup_insert_eq. by eapply lookup_lt_Some.
Qed.

Lemma loc_insert_other data row row' p' :
  0 <= row -> row' <> row ->
  loc (<[Z.to_nat row := p']> data) row' = loc data row'.
Proof.
  intros Hr Hne. unfold loc. destruct (decide (0 <= row')) as [Hr'|]; [|done].
  rewrite list_lookup_insert_ne; [done | lia].
Qed.

(** ** The callback, case by case *)

Ltac unfold_py :=
  unfold bind, ret, lift, read_price, loc_cell, patch_value_column,
    incr_patches.

(** The [quantity] branch on a row of the frame and a number: the cell is
    patched, the patch is logged, the counter goes up by one. *)
Lemma handle_cell_edit_quantity event w p v :
  ev_column event = "quantity" ->
  loc (summary_data w) (ev_row event) = Ok p ->
  py_mul (ev_value event) (price p) = Ok v ->
  handle_cell_edit event w =
    (Ok tt,
     {| summary_data :=
          <[Z.to_nat (ev_row event) := set_value v p]> (summary_data w);
        patches := patches w + 1;
        patch_log := patch_log w ++
          [{| patch_column := "value"; patch_row := ev_row event;
              patch_value := v |}] |}).
Proof.
  intros Hc Hp Hv. unfold handle_cell_edit.
  rewrite decide_True by done.
  unfold_py.
  rewrite Hp. simpl. rewrite Hv. reflexivity.
Qed.

(** Any other column: nothing happens. *)
Lemma handle_cell_edit_other event w :
  ev_column event <> "quantity" ->
  handle_cell_edit event w = (Ok tt, w).
Proof.
  intros Hc. unfold handle_cell_edit. by rewrite decide_False.
Qed.

(** An exception leaves no partial write: the price is read and the product
    computed before the first assignment. *)
Lemma handle_cell_edit_raise event w e :
  (handle_cell_edit event w).1 = Raise e ->
  (handle_cell_edit event w).2 = w.
Proof.
  unfold handle_cell_edit.
  destruct (decide (ev_column event = "quantity")); [|done].
  unfold_py.
  destruct (loc (summary_data w) (ev_row event)) as [p|e'] eqn:Hp; simpl;
    [|done].
  destruct (py_mul (ev_value event) (price p)) as [v|e'']; simpl; done.
Qed.

(** The three outcomes of the callback. *)
Lemma handle_cell_edit_cases event w :
  (processed event w = true /\
   exists p v,
     loc (summary_data w) (ev_row event) = Ok p /\
     py_mul (ev_value event) (price p) = Ok v /\
     handle_cell_edit event w =
       (Ok tt,
        {| summary_data :=
             <[Z.to_nat (ev_row event) := set_value v p]> (summary_data w);
           patches := patches w + 1;
           patch_log := patch_log w ++
             [{| patch_column := "value"; patch_row := ev_row event;
                 patch_value := v |}] |}))
  \/ (processed event w = false /\ (handle_cell_edit event w).2 = w).
Proof.
  unfold processed.
  destruct (decide (ev_column event = "quantity")) as [Hc|Hc].
  - rewrite bool_decide_eq_true_2 by done. simpl.
    destruct (loc (summary_data w) (ev_row event)) as [p|e] eqn:Hp.
    + destruct (py_mul (ev_value event) (price p)) as [v|e] eqn:Hv.
      * left. rewrite (handle_cell_edit_quantity _ _ _ _ Hc Hp Hv).
        split; [done|]. by exists p, v.
      * right. unfold handle_cell_edit. rewrite decide_True by done.
        unfold_py. rewrite Hp. simpl.
        rewrite Hv. done.
    + right. unfold handle_cell_edit. rewrite decide_True by done.
      unfold_py. rewrite Hp. done.
  - right. rewrite bool_decide_eq_false_2 by done.
    by rewrite handle_cell_edit_other.
Qed.

(** ** Quantity edits *)

(** C1. A valid quantity edit to the integer [q] (not negative and, as
    every value of the number editor, in the range of [float64]) on a row
    [r] of the frame: the callback returns, the [value] cell of row [r] is
    the [float64] product of [q] and the row's price, the price is as it
    was, and every other row is as it was. *)
Theorem quantity_edit_sets_value event w (q : Z) (pr : float64) :
  ev_column event = "quantity" ->
  ev_value event = CInt q ->
  valid_quantity q ->
  loc_cell (summary_data w) (ev_row event) price = Ok pr ->
  exists w',
    handle_cell_edit event w = (Ok tt, w') /\
    loc_cell (summary_data w') (ev_row event) value
      = Ok (f64_mul (f64_of_int q) pr) /\
    loc_cell (summary_data w') (ev_row event) price = Ok pr /\
    forall row', row' <> ev_row event ->
      loc (summary_data w') row' = loc (summary_data w) row'.
Proof.
  intros Hc Hq [_ Hfits] Hpr. unfold loc_cell in Hpr.
  destruct (loc (summary_data w) (ev_row event)) as [p|e] eqn:Hp; [|done].
  simpl in Hpr. injection Hpr as <-.
  assert (Hv : py_mul (ev_value event) (price p)
               = Ok (f64_mul (f64_of_int q) (price p)))
    by (rewrite Hq; simpl; by rewrite Hfits).
  eexists. split; [by apply (handle_cell_edit_quantity _ _ p _ Hc Hp Hv)|].
  simpl. unfold loc_cell.
  rewrite (loc_insert_same _ _ _ _ Hp). simpl.
  repeat split. intros row' Hne.
  apply loc_insert_other; [|done]. by apply loc_Ok in Hp as [? _].
Qed.

(** ** Edits to other columns *)

(** C2, as the code has it. An edit to a column other than [quantity]
    (so to [action] or [notes]) runs neither the recompute nor the
    increment: the callback returns and the world, counter included, is as
    it was. *)
Theorem other_edit_changes_nothing event w :
  ev_column event <> "quantity" ->
  handle_cell_edit event w = (Ok tt, w) /\
  patches (dispatch event w) = patches w.
Proof.
  intros Hc. unfold dispatch. by rewrite handle_cell_edit_other.
Qed.

(** ** The counter *)

Lemma dispatch_cases event w :
  (processed event w = true /\
   patches (dispatch event w) = patches w + 1 /\
   length (patch_log (dispatch event w)) = S (length (patch_log w)) /\
   length (summary_data (dispatch event w)) = length (summary_data w))
  \/ (processed event w = false /\ dispatch event w = w).
Proof.
  unfold dispatch.
  destruct (handle_cell_edit_cases event w)
    as [[Hproc (p & v & _ & _ & ->)] | [Hproc Hw]]; [left | right; done].
  simpl. rewrite length_app, length_insert. simpl.
  repeat split; [done | lia].
Qed.

Lemma dispatch_patches event w :
  patches (dispatch event w)
  = patches w + (if processed event w then 1 else 0).
Proof.
  destruct (dispatch_cases event w) as [(-> & -> & _) | [-> ->]]; lia.
Qed.

Lemma run_edits_cons event events w :
  run_edits (event :: events) w = run_edits events (dispatch event w).
Proof. reflexivity. Qed.

Lemma run_edits_patches events w :
  patches (run_edits events w)
  = patches w + Z.of_nat (processed_count events w).
Proof.
  revert w. induction events as [|event events IH]; intros w.
  - simpl. lia.
  - rewrite run_edits_cons, IH, dispatch_patches. simpl.
    destruct (processed event w); lia.
Qed.

(** [processed] read off the event and the height of the frame. *)
Lemma processed_reconciles event w :
  processed event w = reconciles (length (summary_data w)) event.
Proof.
  unfold processed, reconciles, handle_cell_edit.
  destruct (decide (ev_column event = "quantity")) as [Hc|Hc].
  - rewrite bool_decide_eq_true_2 by done. simpl.
    rewrite <- loc_in_range.
    unfold_py.
    destruct (loc (summary_data w) (ev_row event)) as [p|e]; simpl; [|done].
    destruct (ev_value event) as [z| | |]; simpl; try done.
    by destruct (f64_int_fits z).
  - by rewrite bool_decide_eq_false_2.
Qed.

Lemma dispatch_length event w :
  length (summary_data (dispatch event w)) = length (summary_data w).
Proof.
  destruct (dispatch_cases event w) as [(_ & _ & _ & ->) | [_ ->]]; done.
Qed.

(** The height of the frame never changes, so the processed events of a
    sequence are known from the start. *)
Lemma processed_count_filter events w :
  processed_count events w
  = length (List.filter (reconciles (length (summary_data w))) events).
Proof.
  revert w. induction events as [|event events IH]; intros w; [done|].
  simpl. rewrite IH, dispatch_length, processed_reconciles.
  by destruct (reconciles _ event).
Qed.

(** C3. Over any sequence of edit events the counter never goes down. An
    event adds exactly one when it is a quantity edit on a row of the frame
    whose new value is a number that multiplies with the price, and nothing
    otherwise; so the counter after the sequence is the counter before it
    plus the number of such events, and a quantity edit to an integer in
    range on a row of the frame adds exactly one. *)
Theorem counter_counts_processed_edits (events : list TableEditEvent) w :
  patches w <= patches (run_edits events w) /\
  patches (run_edits events w)
    = patches w
      + Z.of_nat
          (length (List.filter (reconciles (length (summary_data w)))
                               events)) /\
  (forall event w0,
     patches (dispatch event w0)
     = patches w0
       + (if reconciles (length (summary_data w0)) event then 1 else 0)) /\
  (forall event w0 (q : Z),
     ev_column event = "quantity" ->
     ev_value event = CInt q ->
     f64_int_fits q = true ->
     0 <= ev_row event < Z.of_nat (length (summary_data w0)) ->
     patches (dispatch event w0) = patches w0 + 1).
Proof.
  split; [|split; [|split]].
  - rewrite run_edits_patches. lia.
  - by rewrite run_edits_patches, processed_count_filter.
  - intros event w0. by rewrite dispatch_patches, processed_reconciles.
  - intros event w0 q Hc Hq Hfits Hrow.
    rewrite dispatch_patches, processed_reconciles. unfold reconciles.
    rewrite !bool_decide_eq_true_2 by done. by rewrite Hq, Hfits.
Qed.

(** ** The reconciliation chain *)


Lemma run_edits_patch_log events w :
  length (patch_log (run_edits events w))
  = (length (patch_log w) + processed_count events w)%nat.
Proof.
  revert w. induction events as [|event events IH]; intros w.
  - simpl. lia.
  - rewrite run_edits_cons, IH. simpl.
    destruct (dispatch_cases event w) as [(-> & _ & -> & _) | [-> ->]]; lia.
Qed.







(** ** The allocation chart *)

Lemma portfolio_distribution_eq (patches_arg : Z) w :
  portfolio_distribution patches_arg w =
    (Ok {| pie_values := value <$> summary_data w;
           pie_names := ticker <$> summary_data w;
           pie_title := "Portfolio Total $ " +:+
             format_comma_0f (series_sum (value <$> summary_data w)) |},
     w).
Proof. reflexivity. Qed.

(** C9. The allocation chart is a function of the frame alone: the counter
    passed to it is not an input of the computation, and neither is the
    counter or the patch log of the world. Two calls with any two counter
    values, in worlds that hold the same frame, give the same figure. *)
Theorem allocation_ignores_counter (p1 p2 : Z) w1 w2 :
  summary_data w1 = summary_data w2 ->
  (portfolio_distribution p1 w1).1 = (portfolio_distribution p2 w2).1.
Proof. intros H. rewrite !portfolio_distribution_eq. simpl. by rewrite H. Qed.

(** ** The price chart *)

(** C7. With an empty selection the price chart is the chart of AAPL,
    titled [AAPL Apple Daily Price], whatever the frame holds; with a
    selection that starts with [i], a row of the frame, it is the chart of
    that row's ticker, titled with that row's ticker and company. In both
    cases the chart is produced as soon as the ticker has historical
    rows. *)
Theorem candlestick_resolves data (historical_data : list HistRow) :
  (forall rows,
     loc_ticker historical_data "AAPL" = Ok rows ->
     candlestick [] data historical_data
     = Ok (candlestick_figure "AAPL" "Apple" rows)) /\
  candlestick [] data historical_data = candlestick [] [] historical_data /\
  (forall i rest p rows,
     loc data i = Ok p ->
     loc_ticker historical_data (ticker p) = Ok rows ->
     candlestick (i :: rest) data historical_data
     = Ok (candlestick_figure (ticker p) (company p) rows) /\
     title_text (candlestick_figure (ticker p) (company p) rows)
     = ticker p +:+ " " +:+ company p +:+ " Daily Price").
Proof.
  split; [|split].
  - intros rows Hrows. unfold candlestick. simpl. by rewrite Hrows.
  - reflexivity.
  - intros i rest p rows Hp Hrows. split; [|reflexivity].
    unfold candlestick, loc_cell. rewrite Hp. simpl. by rewrite Hrows.
Qed.

(** ** The last close *)

Lemma loc_ticker_cases (data : list HistRow) (t : string) :
  let rows := filter (fun r => Ticker r = t) data in
  (rows = [] /\ loc_ticker data t = Raise KeyError)
  \/ (rows <> [] /\ loc_ticker data t = Ok rows).
Proof.
  unfold loc_ticker. destruct (filter _ data); [by left | by right].
Qed.

(** In a column of strictly increasing dates the last one is the
    greatest. *)
Lemma increasing_last (dates : list Z) (d_last : Z) :
  increasing dates = true ->
  last dates = Some d_last ->
  forall d, d ∈ dates -> d <= d_last.
Proof.
  induction dates as [|d0 [|d1 rest] IH]; intros Hinc Hlast d Hd.
  - by apply elem_of_nil in Hd.
  - apply list_elem_of_singleton in Hd as ->. injection Hlast as <-. lia.
  - simpl in Hinc. apply andb_prop in Hinc as [Hlt Hinc].
    apply bool_decide_eq_true in Hlt.
    change (last (d1 :: rest) = Some d_last) in Hlast.
    apply elem_of_cons in Hd as [-> | Hd].
    + assert (d1 <= d_last) by (apply IH; [done.. | apply elem_of_cons; by left]).
      lia.
    + by apply IH.
Qed.

(** C8. When the ticker has no row in the historical frame, [last_close]
    raises [KeyError], a look-up error. When it has one, [last_close]
    returns the close of the ticker's last row in the frame; if the
    ticker's dates increase strictly down the frame, no row of the ticker
    is more recent than that one. *)
Theorem last_close_most_recent (ticker : string) (data : list HistRow) :
  let rows := filter (fun r => Ticker r = ticker) data in
  (rows = [] -> last_close ticker data = Raise KeyError) /\
  (rows <> [] ->
   exists r,
     last rows = Some r /\
     last_close ticker data = Ok (Close r) /\
     (increasing (Date <$> rows) = true ->
      forall r', r' ∈ data -> Ticker r' = ticker -> Date r' <= Date r)).
Proof.
  intros rows. unfold last_close.
  destruct (loc_ticker_cases data ticker) as [[Hnil ->] | [Hne ->]].
  - split; [done | by intros []].
  - split; [done | intros _].
    destruct (last rows) as [r|] eqn:Hlast;
      [| by apply last_None in Hlast].
    assert (Hdate : last (Date <$> rows) = Some (Date r))
      by by rewrite fmap_last, Hlast.
    exists r. split; [done|]. split.
    + change (iloc_last (Close <$> rows) = Ok (Close r)).
      unfold iloc_last. by rewrite fmap_last, Hlast.
    + intros Hinc r' Hin Ht.
      apply (increasing_last (Date <$> rows)); [done.. |].
      apply list_elem_of_fmap_2. by apply list_elem_of_filter.
Qed.

End Properties.

(** ** The styler *)

Lemma style_of_action_cell_guarded (value : string)
    (colors : gmap string string) :
  style_of_action_cell value colors
  = Ok (match colors !! value with
        | Some c => "color: " +:+ c
        | None => ""
        end).
Proof.
  unfold style_of_action_cell, getitem.
  destruct (decide (value ∈ dom colors)) as [Hin | Hout].
  - apply elem_of_dom in Hin as [c ->]. reflexivity.
  - apply not_elem_of_dom in Hout as ->. reflexivity.
Qed.

(** C10. [style_of_action_cell] never raises, whatever the value and the
    colour table: the look-up is guarded by the membership test. With the
    default table it returns the green colour rule for [buy], the red one
    for [sell] and the empty string for every other value, [hold]
    included. *)
Theorem style_of_action_cell_total (value : string) :
  (forall colors, is_ok (style_of_action_cell value colors) = true) /\
  style_of_action_cell value default_colors
  = Ok (if decide (value = "buy") then "color: #5AD534"
        else if decide (value = "sell") then "color: #D94467"
        else "") /\
  style_of_action_cell "hold" default_colors = Ok "".
Proof.
  split; [|split].
  - intros colors. by rewrite style_of_action_cell_guarded.
  - rewrite style_of_action_cell_guarded. unfold default_colors.
    destruct (decide (value = "buy")) as [-> | Hbuy]; [done|].
    rewrite lookup_insert_ne by done.
    destruct (decide (value = "sell")) as [-> | Hsell].
    + by rewrite lookup_singleton_eq.
    + by rewrite lookup_singleton_ne.
  - by rewrite style_of_action_cell_guarded.
Qed.

(** * The total of the allocation chart, in binary64

    The sum and its printing are stated for the IEEE 754 instance, the
    arithmetic the script runs on. *)

(** ** Columns of zeros *)








(** ** The title *)

(** C5. Whatever the counter and the world, the allocation chart is
    produced and the frame is left as it was; its title is the text
    [Portfolio Total $ ] followed by the sum of the [value] column of the
    frame as it is at that moment, printed with [",.0f"] (rounded to a
    whole number, digits grouped). The sum is the one pandas computes: NaNs
    count as zero; a column of fewer than 8 rows is added from the top
    down, the 8 rows of the dashboard are added in pairs. *)
Theorem allocation_title_is_sum (patches_arg : Z) (w : World) :
  let nan0 := fun x : float => if PrimFloat.is_nan x then 0%float else x in
  (exists fig,
     portfolio_distribution patches_arg w = (Ok fig, w) /\
     pie_title fig
     = "Portfolio Total $ " +:+
       Binary64.format_0f (Binary64.sum (value <$> summary_data w))) /\
  (forall v0 v1 v2 v3 v4 v5 v6 v7 : float,
     Binary64.sum [v0; v1; v2; v3; v4; v5; v6; v7]
     = (0 + (((nan0 v0 + nan0 v1) + (nan0 v2 + nan0 v3))
             + ((nan0 v4 + nan0 v5) + (nan0 v6 + nan0 v7))))%float) /\
  (forall column : list float,
     (length column < 8)%nat ->
     Binary64.sum column
     = (0 + foldl PrimFloat.add 0 (nan0 <$> column))%float) /\
  Binary64.sum [] = 0%float.
Proof.
  intros nan0. split; [|split; [|split]].
  - eexists. split; reflexivity.
  - reflexivity.
  - intros column Hlen. unfold Binary64.sum.
    assert (Hfill : (length (Binary64.fillna column) < 8)%nat)
      by (unfold Binary64.fillna; by rewrite length_fmap).
    destruct (length column) as [|n]; simpl;
      by rewrite decide_True by done.
  - reflexivity.
Qed.


(** * The properties on the small dashboard *)

(** The last close of AAPL in [demo_history] and the frame built from it. *)
Example demo_last_close : last_close "AAPL" demo_history = Ok 11.25%float.
Proof. reflexivity. Qed.

Example demo_frame_aapl :
  loc (summary_data demo_world) 0
  = Ok {| ticker := "AAPL"; company := "Apple"; quantity := 75;
          price := 11.25%float; value := 843.75%float; action := "buy";
          notes := "" |}.
Proof. reflexivity. Qed.

(** The scenario of the specification: AAPL at 75 shares, the quantity
    edited to 100; the value becomes 100 times the price, the counter goes
    from 0 to 1 and the title of the allocation chart shows the new
    total. *)
Example demo_scenario :
  let w' := dispatch (edit "quantity" 0 (CInt 100)) demo_world in
  loc_cell (summary_data w') 0 value = Ok 1125%float /\
  patches demo_world = 0 /\
  patches w' = 1 /\
  (portfolio_distribution (patches demo_world) demo_world).1
  = Ok {| pie_values := [843.75; 840; 300; 200; 200; 360; 140; 340]%float;
          pie_names := EQUITY_LIST;
          pie_title := "Portfolio Total $ 3,224" |} /\
  (portfolio_distribution (patches w') w').1
  = Ok {| pie_values := [1125; 840; 300; 200; 200; 360; 140; 340]%float;
          pie_names := EQUITY_LIST;
          pie_title := "Portfolio Total $ 3,505" |}.
Proof. vm_compute. repeat split. Qed.

(** [",.0f"] rounds half to even and groups the digits. *)
Example demo_format :
  Binary64.format_0f 1234567.5%float = "1,234,568" /\
  Binary64.format_0f 1234566.5%float = "1,234,566" /\
  Binary64.format_0f 999.5%float = "1,000" /\
  Binary64.format_0f 0.5%float = "0" /\
  Binary64.format_0f (-1234.25)%float = "-1,234".
Proof. vm_compute. repeat split. Qed.

(** An integer past the range of [float64] makes the product raise, and
    nothing is written. *)
Example demo_overflow :
  handle_cell_edit (edit "quantity" 0 (CInt (2 ^ 1024))) demo_world
  = (Raise OverflowError, demo_world).
Proof. vm_compute. reflexivity. Qed.

(** C1 at work: AAPL edited to 100 shares. *)
Lemma quantity_edit_sets_value_witness :
  ev_column (edit "quantity" 0 (CInt 100)) = "quantity" /\
  valid_quantity 100 /\
  loc_cell (summary_data demo_world) 0 price = Ok 11.25%float /\
  exists w',
    handle_cell_edit (edit "quantity" 0 (CInt 100)) demo_world = (Ok tt, w') /\
    loc_cell (summary_data w') 0 value = Ok 1125%float /\
    loc_cell (summary_data w') 0 price = Ok 11.25%float /\
    forall row', row' <> 0 ->
      loc (summary_data w') row' = loc (summary_data demo_world) row'.
Proof.
  assert (Hq : valid_quantity 100) by (split; [lia | reflexivity]).
  split; [reflexivity|]. split; [exact Hq|]. split; [reflexivity|].
  exact (quantity_edit_sets_value
           (edit "quantity" 0 (CInt 100)) demo_world 100 11.25%float
           eq_refl eq_refl Hq eq_refl).
Defined.

(** C3 at work: of the events of [demo_edits] two are counted, of those of
    [idle_edits] none, and one edit of AAPL to 100 shares adds one. *)
Lemma counter_counts_processed_edits_witness :
  patches (run_edits demo_edits demo_world) = 2 /\
  patches (run_edits idle_edits demo_world) = 0 /\
  0 <= 0 < Z.of_nat (length (summary_data demo_world)) /\
  patches (dispatch (edit "quantity" 0 (CInt 100)) demo_world)
  = patches demo_world + 1.
Proof.
  assert (Hrow : 0 <= 0 < Z.of_nat (length (summary_data demo_world))).
  { split; vm_compute; [discriminate | reflexivity]. }
  split; [|split; [|split]].
  - exact (proj1 (proj2 (counter_counts_processed_edits
                           demo_edits demo_world))).
  - exact (proj1 (proj2 (counter_counts_processed_edits
                           idle_edits demo_world))).
  - exact Hrow.
  - exact (proj2 (proj2 (proj2 (counter_counts_processed_edits [] demo_world)))
             (edit "quantity" 0 (CInt 100)) demo_world 100
             eq_refl eq_refl eq_refl Hrow).
Defined.

(** C2 as stated fails: an edit to [notes] leaves the counter where it
    was. *)
Lemma notes_edit_does_not_count :
  ~ (ev_column (edit "notes" 0 (CStr "watch")) <> "quantity" ->
     patches (dispatch (edit "notes" 0 (CStr "watch")) demo_world)
     = patches demo_world + 1).
Proof. intros H. specialize (H ltac:(done)). vm_compute in H. done. Qed.

Lemma other_edit_changes_nothing_witness :
  ev_column (edit "notes" 0 (CStr "watch")) <> "quantity" /\
  handle_cell_edit (edit "notes" 0 (CStr "watch")) demo_world
    = (Ok tt, demo_world) /\
  patches (dispatch (edit "notes" 0 (CStr "watch")) demo_world)
    = patches demo_world.
Proof.
  split; [done|].
  apply (other_edit_changes_nothing (edit "notes" 0 (CStr "watch")) demo_world).
  done.
Defined.


(** C5 at work: the title for the frame of [demo_world], a column of three
    rows, and a column of 8 rows on which adding in pairs and adding from
    the top down differ. *)
Lemma allocation_title_is_sum_witness :
  (exists fig,
     portfolio_distribution 0 demo_world = (Ok fig, demo_world) /\
     pie_title fig = "Portfolio Total $ 3,224") /\
  Binary64.sum [1.5; 2.25; 3]%float = 6.75%float /\
  Binary64.sum [1e16; 1; 1; 1; 1; 1; 1; 1]%float = 10000000000000006%float /\
  foldl PrimFloat.add 0%float [1e16; 1; 1; 1; 1; 1; 1; 1]%float
  = 1e16%float.
Proof.
  split; [|split; [|split]].
  - destruct (proj1 (allocation_title_is_sum 0 demo_world))
      as (fig & Hfig & Htitle).
    exists fig. split; [exact Hfig|]. rewrite Htitle. vm_compute. reflexivity.
  - exact (proj1 (proj2 (proj2 (allocation_title_is_sum 0 demo_world)))
             [1.5; 2.25; 3]%float ltac:(simpl; lia)).
  - exact (proj1 (proj2 (allocation_title_is_sum 0 demo_world))
             1e16%float 1%float 1%float 1%float 1%float 1%float 1%float
             1%float).
  - reflexivity.
Defined.


(** C9 at work: the same frame with the counter at 0 and at 7. *)
Lemma allocation_ignores_counter_witness :
  summary_data demo_world = summary_data counted_world /\
  (portfolio_distribution 0 demo_world).1
  = (portfolio_distribution 7 counted_world).1.
Proof.
  split; [reflexivity|].
  exact (allocation_ignores_counter 0 7 demo_world counted_world eq_refl).
Defined.

(** C7 at work: the second row of the frame selected. *)
Lemma candlestick_resolves_witness :
  candlestick [] (summary_data demo_world) demo_history
  = Ok (candlestick_figure "AAPL" "Apple"
          [hist_row "AAPL" 1 10 11 9.5 10.5;
           hist_row "AAPL" 2 10.5 12 10 11.25]%float) /\
  exists fig,
    candlestick [1] (summary_data demo_world) demo_history = Ok fig /\
    title_text fig = "MSFT Microsoft Daily Price".
Proof.
  pose proof (candlestick_resolves (summary_data demo_world) demo_history)
    as (Hnone & _ & Hsel).
  split.
  - apply Hnone. reflexivity.
  - destruct (Hsel 1 []
                {| ticker := "MSFT"; company := "Microsoft"; quantity := 40;
                   price := 21%float; value := 840%float; action := "sell";
                   notes := "" |}
                [hist_row "MSFT" 1 19 20.5 19 20;
                 hist_row "MSFT" 2 20 21.5 20 21]%float
                eq_refl eq_refl) as [Hfig Htitle].
    eexists. split; [exact Hfig | exact Htitle].
Defined.

(** C8 at work: AAPL has two rows, the later one of day 2; XYZ has none. *)
Lemma last_close_most_recent_witness :
  last_close "XYZ" demo_history = Raise KeyError /\
  filter (fun r => Ticker r = "AAPL") demo_history <> [] /\
  increasing (Date <$> filter (fun r => Ticker r = "AAPL") demo_history)
    = true /\
  last_close "AAPL" demo_history = Ok 11.25%float /\
  forall r', r' ∈ demo_history -> Ticker r' = "AAPL" -> Date r' <= 2.
Proof.
  split.
  { apply (last_close_most_recent "XYZ" demo_history). reflexivity. }
  assert (Hrows : filter (fun r => Ticker r = "AAPL") demo_history <> [])
    by discriminate.
  split; [exact Hrows|]. split; [reflexivity|].
  destruct (proj2 (last_close_most_recent "AAPL" demo_history) Hrows)
    as (r & Hlast & Hclose & Hrecent).
  injection Hlast as <-.
  split; [exact Hclose | exact (Hrecent eq_refl)].
Defined.

(** * Further properties of the script *)

Section Edits.
Context {F64T : Float64} {F64 : Float64Ops}.

Implicit Types (w : World) (event : TableEditEvent) (data : list Position).

Ltac unfold_callback :=
  unfold handle_cell_edit, bind, ret, lift, read_price, loc_cell,
    patch_value_column, incr_patches.

(** ** What one callback run does to the frame *)

Lemma processed_column event w :
  processed event w = true -> ev_column event = "quantity".
Proof.
  unfold processed. intros [Hc _]%andb_prop.
  by apply bool_decide_eq_true in Hc.
Qed.

(** The two outcomes of a callback run, seen from the frame. *)
Lemma dispatch_frame_cases event w :
  (processed event w = true /\
   ev_column event = "quantity" /\
   exists p v,
     loc (summary_data w) (ev_row event) = Ok p /\
     py_mul (ev_value event) (price p) = Ok v /\
     dispatch event w =
       {| summary_data :=
            <[Z.to_nat (ev_row event) := set_value v p]> (summary_data w);
          patches := patches w + 1;
          patch_log := patch_log w ++
            [{| patch_column := "value"; patch_row := ev_row event;
                patch_value := v |}] |})
  \/ (processed event w = false /\ dispatch event w = w).
Proof.
  unfold dispatch.
  destruct (handle_cell_edit_cases event w)
    as [[Hproc (p & v & Hp & Hv & ->)] | [Hproc Hw]]; [left | right; done].
  split; [done|]. split; [exact (processed_column _ _ Hproc)|].
  by exists p, v.
Qed.

Lemma dispatch_quantity event w p v :
  ev_column event = "quantity" ->
  loc (summary_data w) (ev_row event) = Ok p ->
  py_mul (ev_value event) (price p) = Ok v ->
  summary_data (dispatch event w)
  = <[Z.to_nat (ev_row event) := set_value v p]> (summary_data w).
Proof.
  intros Hc Hp Hv. unfold dispatch.
  by rewrite (handle_cell_edit_quantity _ _ _ _ Hc Hp Hv).
Qed.

(** Whether an event is processed depends on the frame's height only, and
    that never changes. *)
Lemma processed_dispatch event event' w :
  processed event (dispatch event' w) = processed event w.
Proof.
  rewrite (processed_reconciles event (dispatch event' w)).
  by rewrite (processed_reconciles event w), dispatch_length.
Qed.

(** A column that [set_value] does not touch is the same after a callback
    run. *)
Lemma dispatch_column {A} (column : Position -> A) event w :
  (forall v p, column (set_value v p) = column p) ->
  column <$> summary_data (dispatch event w) = column <$> summary_data w.
Proof.
  intros Hcol.
  destruct (dispatch_frame_cases event w)
    as [(_ & _ & p & v & Hp & _ & ->) | [_ ->]]; [|done].
  simpl. apply loc_Ok in Hp as [_ Hp].
  rewrite list_fmap_insert, Hcol. apply list_insert_id.
  by rewrite list_lookup_fmap, Hp.
Qed.

Lemma run_edits_column {A} (column : Position -> A) events w :
  (forall v p, column (set_value v p) = column p) ->
  column <$> summary_data (run_edits events w) = column <$> summary_data w.
Proof.
  intros Hcol. revert w. induction events as [|event events IH]; intros w.
  - done.
  - by rewrite run_edits_cons, IH, dispatch_column.
Qed.

Lemma run_edits_length events w :
  length (summary_data (run_edits events w)) = length (summary_data w).
Proof.
  revert w. induction events as [|event events IH]; intros w; [done|].
  by rewrite run_edits_cons, IH, dispatch_length.
Qed.

Lemma run_edits_snoc events event w :
  run_edits (events ++ [event]) w = dispatch event (run_edits events w).
Proof. unfold run_edits. by rewrite foldl_app. Qed.

(** Reading a cell of a column that two frames share. *)
Lemma loc_cell_column {A} (column : Position -> A) data data' row :
  column <$> data' = column <$> data ->
  loc_cell data' row column = loc_cell data row column.
Proof.
  intros Hcol. unfold loc_cell, loc.
  destruct (decide (0 <= row)); [|done].
  assert (H : column <$> data' !! Z.to_nat row
              = column <$> data !! Z.to_nat row)
    by by rewrite <- !list_lookup_fmap, Hcol.
  destruct (data' !! Z.to_nat row), (data !! Z.to_nat row);
    simpl in *; congruence.
Qed.

Lemma loc_cell_Ok {A} (column : Position -> A) data row a :
  loc_cell data row column = Ok a <->
  exists p, loc data row = Ok p /\ column p = a.
Proof.
  unfold loc_cell. destruct (loc data row) as [p|e]; simpl; split.
  - intros [= <-]. by exists p.
  - intros (p' & [= <-] & <-). done.
  - done.
  - intros (p' & [=] & _).
Qed.

(** ** Exceptions of the callback *)

(** X1. When the callback raises, nothing has been written: the world is
    the one it was called in. It raises only in its [quantity] branch, and
    only [KeyError] (the row is not in the frame), [TypeError] (the row is
    in the frame and the new value is text or nothing) or [OverflowError]
    (the row is in the frame and the new value is an integer out of the
    range of [float64]). *)
Theorem edit_exception_leaves_world event w (e : exn) :
  (handle_cell_edit event w).1 = Raise e ->
  (handle_cell_edit event w).2 = w /\
  ev_column event = "quantity" /\
  (e = KeyError /\ is_ok (loc (summary_data w) (ev_row event)) = false
   \/ e = TypeError /\ is_ok (loc (summary_data w) (ev_row event)) = true
      /\ (ev_value event = CNone \/ exists s, ev_value event = CStr s)
   \/ e = OverflowError /\ is_ok (loc (summary_data w) (ev_row event)) = true
      /\ exists z, ev_value event = CInt z /\ f64_int_fits z = false).
Proof.
  unfold_callback.
  destruct (decide (ev_column event = "quantity")) as [Hc|Hc]; [|done].
  destruct (loc (summary_data w) (ev_row event)) as [p|e'] eqn:Hp; simpl.
  - destruct (ev_value event) as [z|x|s|]; simpl; try done.
    + destruct (f64_int_fits z) eqn:Hfits; simpl; [done|].
      intros [= <-]. do 2 (split; [done|]). right. right.
      split; [done|]. split; [done|]. by exists z.
    + intros [= <-]. do 2 (split; [done|]). right. left.
      split; [done|]. split; [done|]. right. by exists s.
    + intros [= <-]. do 2 (split; [done|]). right. left.
      split; [done|]. split; [done|]. by left.
  - intros [= <-]. do 2 (split; [done|]). left. split; [|done].
    unfold loc in Hp. destruct (decide (0 <= ev_row event)); [|congruence].
    destruct (summary_data w !! Z.to_nat (ev_row event)); congruence.
Qed.

(** X2. A quantity edit on a row that is not in the frame (negative or past
    the last row) raises [KeyError] whatever the new value is, since the
    price is read first; the world is left as it was. *)
Theorem quantity_edit_row_out_of_frame event w :
  ev_column event = "quantity" ->
  ~ (0 <= ev_row event < Z.of_nat (length (summary_data w))) ->
  handle_cell_edit event w = (Raise KeyError, w).
Proof.
  intros Hc Hrow. unfold_callback. rewrite decide_True by done.
  pose proof (loc_in_range (summary_data w) (ev_row event)) as Hok.
  rewrite bool_decide_eq_false_2 in Hok by done.
  unfold loc in *. destruct (decide (0 <= ev_row event)); [|done].
  by destruct (summary_data w !! Z.to_nat (ev_row event)).
Qed.

(** X3. A quantity edit on a row of the frame whose new value is text or
    nothing raises [TypeError] at the product; the world is left as it
    was. *)
Theorem quantity_edit_not_a_number event w :
  ev_column event = "quantity" ->
  0 <= ev_row event < Z.of_nat (length (summary_data w)) ->
  (ev_value event = CNone \/ exists s, ev_value event = CStr s) ->
  handle_cell_edit event w = (Raise TypeError, w).
Proof.
  intros Hc Hrow Hv. unfold_callback. rewrite decide_True by done.
  pose proof (loc_in_range (summary_data w) (ev_row event)) as Hok.
  rewrite bool_decide_eq_true_2 in Hok by done.
  destruct (loc (summary_data w) (ev_row event)) as [p|]; [simpl|done].
  by destruct Hv as [-> | [s ->]].
Qed.

(** ** What edits keep *)

(** X4. Whatever events the callback is run on, the frame keeps its height
    and its [ticker], [company], [quantity], [price], [action] and [notes]
    columns: the callback writes the [value] column and nothing else. *)
Theorem edits_keep_other_columns (events : list TableEditEvent) w :
  let data := summary_data w in
  let data' := summary_data (run_edits events w) in
  length data' = length data /\
  ticker <$> data' = ticker <$> data /\
  company <$> data' = company <$> data /\
  quantity <$> data' = quantity <$> data /\
  price <$> data' = price <$> data /\
  action <$> data' = action <$> data /\
  notes <$> data' = notes <$> data.
Proof.
  simpl. split; [apply run_edits_length|].
  repeat split; by apply run_edits_column.
Qed.

(** X5. Whatever events the callback is run on, the patches it makes are
    all on column [value] and on rows of the frame, one per processed
    quantity edit, and they are added after the patches made before. *)
Theorem edits_patch_value_only (events : list TableEditEvent) w :
  exists new,
    patch_log (run_edits events w) = patch_log w ++ new /\
    length new = processed_count events w /\
    Forall (fun patch =>
              patch_column patch = "value" /\
              0 <= patch_row patch < Z.of_nat (length (summary_data w)))
           new.
Proof.
  revert w. induction events as [|event events IH]; intros w.
  - exists []. by rewrite app_nil_r.
  - rewrite run_edits_cons. destruct (IH (dispatch event w))
      as (new & Hlog & Hlen & Hall).
    rewrite dispatch_length in Hall. simpl.
    destruct (dispatch_frame_cases event w)
      as [(-> & _ & p & v & Hp & _ & Hw) | [-> Hw]]; rewrite Hw in *.
    + eexists (_ :: new). simpl in Hlog. rewrite <- app_assoc in Hlog.
      split; [exact Hlog|]. split; [simpl; by rewrite Hlen|].
      constructor; [|done]. simpl. split; [done|].
      pose proof (loc_in_range (summary_data w) (ev_row event)) as Hok.
      rewrite Hp in Hok. symmetry in Hok.
      by apply bool_decide_eq_true in Hok.
    + by exists new.
Qed.

(** X6. The counter counts the patches: over any events, it goes up by the
    number of patches the callback made. *)
Theorem counter_counts_patches (events : list TableEditEvent) w :
  patches (run_edits events w) - patches w
  = Z.of_nat (length (patch_log (run_edits events w)))
    - Z.of_nat (length (patch_log w)).
Proof. rewrite run_edits_patches, run_edits_patch_log. lia. Qed.

(** X7. If the counter is where it was after the callback ran on a
    sequence of events, the callback has made no patch and the allocation
    chart computed afterwards, with whatever counter, is the one from
    before: the chart, which is recomputed when the counter changes, never
    misses a change of the [value] column. *)
Theorem counter_unchanged_chart_unchanged (events : list TableEditEvent) w
    (p1 p2 : Z) :
  patches (run_edits events w) = patches w ->
  patch_log (run_edits events w) = patch_log w /\
  value <$> summary_data (run_edits events w) = value <$> summary_data w /\
  (portfolio_distribution p1 (run_edits events w)).1
  = (portfolio_distribution p2 w).1.
Proof.
  intros Hp. assert (Hw : run_edits events w = w); [|by rewrite Hw].
  revert w Hp. induction events as [|event events IH]; intros w Hp; [done|].
  rewrite run_edits_cons in *.
  pose proof (run_edits_patches events (dispatch event w)) as Hrun.
  destruct (dispatch_cases event w) as [(_ & Hinc & _) | [_ Hw]].
  - lia.
  - rewrite Hw in *. by apply IH.
Qed.

(** ** How edits compose *)

(** X8. Running the callback a second time on the same event leaves the
    frame as the first run left it. *)
Theorem edit_twice_same_frame event w :
  summary_data (dispatch event (dispatch event w))
  = summary_data (dispatch event w).
Proof.
  destruct (dispatch_frame_cases event w)
    as [(_ & Hc & p & v & Hp & Hv & Hw) | [_ Hw]];
    [|by rewrite !Hw].
  rewrite Hw.
  rewrite (dispatch_quantity event _ (set_value v p) v); simpl.
  - by rewrite list_insert_insert_eq.
  - done.
  - by apply (loc_insert_same _ _ p).
  - done.
Qed.

(** X9. Edits on two different rows commute: the frame and the counter are
    the same whichever of the two events the callback is run on first. *)
Theorem edits_on_different_rows_commute event1 event2 w :
  ev_row event1 <> ev_row event2 ->
  summary_data (dispatch event2 (dispatch event1 w))
  = summary_data (dispatch event1 (dispatch event2 w)) /\
  patches (dispatch event2 (dispatch event1 w))
  = patches (dispatch event1 (dispatch event2 w)).
Proof.
  intros Hrows. split.
  - pose proof (processed_dispatch event1 event2 w) as H12.
    pose proof (processed_dispatch event2 event1 w) as H21.
    destruct (dispatch_frame_cases event1 w)
      as [(_ & Hc1 & p1 & v1 & Hp1 & Hv1 & Hw1) | [Hn1 Hw1]].
    + destruct (dispatch_frame_cases event2 w)
        as [(_ & Hc2 & p2 & v2 & Hp2 & Hv2 & Hw2) | [Hn2 Hw2]].
      * pose proof Hp1 as [Hr1 _]%loc_Ok. pose proof Hp2 as [Hr2 _]%loc_Ok.
        rewrite (dispatch_quantity event2 _ p2 v2); [|done| |done].
        2: { rewrite Hw1. simpl. by rewrite loc_insert_other. }
        rewrite (dispatch_quantity event1 (dispatch event2 w) p1 v1);
          [|done| |done].
        2: { rewrite Hw2. simpl. by rewrite loc_insert_other. }
        rewrite Hw1, Hw2. simpl. apply list_insert_insert_ne. lia.
      * rewrite Hw2.
        destruct (dispatch_frame_cases event2 (dispatch event1 w))
          as [(Hy & _) | [_ ->]]; [congruence | done].
    + rewrite Hw1.
      destruct (dispatch_frame_cases event1 (dispatch event2 w))
        as [(Hy & _) | [_ ->]]; [congruence | done].
  - rewrite !dispatch_patches, !processed_dispatch. lia.
Qed.

(** X10. Whatever events came before, after a quantity edit to an integer
    [q] in the range of [float64] on a row of the frame the row's [value]
    cell is the product of [q] and the price the row had at the start: the
    last quantity edit on a row decides its value, and prices never move. *)
Theorem last_quantity_edit_decides (events : list TableEditEvent)
    event w (q : Z) (pr : float64) :
  ev_column event = "quantity" ->
  ev_value event = CInt q ->
  f64_int_fits q = true ->
  loc_cell (summary_data w) (ev_row event) price = Ok pr ->
  loc_cell (summary_data (run_edits (events ++ [event]) w))
           (ev_row event) value
  = Ok (f64_mul (f64_of_int q) pr).
Proof.
  intros Hc Hq Hfits Hpr. rewrite run_edits_snoc.
  set (w1 := run_edits events w).
  assert (Hpr1 : loc_cell (summary_data w1) (ev_row event) price = Ok pr).
  { rewrite <- Hpr. apply loc_cell_column. by apply run_edits_column. }
  apply loc_cell_Ok in Hpr1 as (p1 & Hp1 & <-).
  rewrite (dispatch_quantity event w1 p1 (f64_mul (f64_of_int q) (price p1)));
    [|done..|rewrite Hq; simpl; by rewrite Hfits].
  unfold loc_cell. by rewrite (loc_insert_same _ _ p1).
Qed.

(** ** Edits and the charts *)

Lemma candlestick_columns_only (selection : list Z) data data'
    (historical_data : list HistRow) :
  ticker <$> data' = ticker <$> data ->
  company <$> data' = company <$> data ->
  candlestick selection data' historical_data
  = candlestick selection data historical_data.
Proof.
  intros Ht Hc. unfold candlestick.
  destruct selection as [|index rest]; [done|].
  by rewrite (loc_cell_column ticker data data'),
             (loc_cell_column company data data').
Qed.

(** X11. The price chart does not depend on the edits made: for any
    selection it is the same before and after any run of events, since it
    reads the [ticker] and [company] columns only. *)
Theorem price_chart_unaffected_by_edits (selection : list Z)
    (events : list TableEditEvent) w (historical_data : list HistRow) :
  candlestick selection (summary_data (run_edits events w)) historical_data
  = candlestick selection (summary_data w) historical_data.
Proof. apply candlestick_columns_only; by apply run_edits_column. Qed.

(** X12. After a quantity edit to an integer [q] in the range of
    [float64] on a row of the frame the allocation chart is the one from
    before with that row's sector value replaced by the product of [q] and
    the row's price, and the sector names as they were. *)
Theorem allocation_after_quantity_edit event w (q p1 p2 : Z) (pr : float64) :
  ev_column event = "quantity" ->
  ev_value event = CInt q ->
  f64_int_fits q = true ->
  loc_cell (summary_data w) (ev_row event) price = Ok pr ->
  exists fig fig',
    (portfolio_distribution p1 w).1 = Ok fig /\
    (portfolio_distribution p2 (dispatch event w)).1 = Ok fig' /\
    pie_values fig'
    = <[Z.to_nat (ev_row event) := f64_mul (f64_of_int q) pr]>
        (pie_values fig) /\
    pie_names fig' = pie_names fig.
Proof.
  intros Hc Hq Hfits Hpr. apply loc_cell_Ok in Hpr as (p & Hp & <-).
  do 2 eexists. split; [reflexivity|]. split; [reflexivity|]. simpl.
  rewrite (dispatch_quantity event w p (f64_mul (f64_of_int q) (price p)));
    [|done..|rewrite Hq; simpl; by rewrite Hfits].
  rewrite !list_fmap_insert. simpl. split; [done|].
  apply loc_Ok in Hp as [_ Hp]. apply list_insert_id.
  by rewrite list_lookup_fmap, Hp.
Qed.

End Edits.

Section History.
Context {F64T : Float64} {F64 : Float64Ops}.

Implicit Types (data : list Position) (hist : list HistRow).

(** ** The last close and the rows of a ticker *)

Lemma last_close_rows (t : string) hist :
  let rows := filter (fun r => Ticker r = t) hist in
  match last rows with
  | Some r => last_close t hist = Ok (Close r)
  | None => last_close t hist = Raise KeyError
  end.
Proof.
  simpl. unfold last_close, loc_ticker.
  destruct (filter (fun r => Ticker r = t) hist) as [|r0 rows] eqn:Hrows.
  - done.
  - destruct (last (r0 :: rows)) as [r|] eqn:Hlast.
    + change (iloc_last (Close <$> r0 :: rows) = Ok (Close r)).
      unfold iloc_last. by rewrite fmap_last, Hlast.
    + by apply last_None in Hlast.
Qed.

Lemma last_close_is_ok (t : string) hist :
  is_ok (last_close t hist) = true <->
  filter (fun r => Ticker r = t) hist <> [].
Proof.
  pose proof (last_close_rows t hist) as H. simpl in H.
  destruct (last (filter (fun r => Ticker r = t) hist)) as [r|] eqn:Hlast;
    rewrite H; simpl.
  - split; [|done]. intros _ Hnil. by rewrite Hnil in Hlast.
  - apply last_None in Hlast. by rewrite Hlast.
Qed.

(** X13. A new row at the end of the historical frame becomes the last
    close of its own ticker and changes the last close of no other. *)
Theorem last_close_append (t : string) hist (r : HistRow) :
  last_close t (hist ++ [r])
  = if decide (Ticker r = t) then Ok (Close r) else last_close t hist.
Proof.
  pose proof (last_close_rows t (hist ++ [r])) as H. simpl in H.
  rewrite filter_app, filter_cons, filter_nil in H.
  destruct (decide (Ticker r = t)) as [Ht|Ht].
  - by rewrite last_snoc in H.
  - rewrite app_nil_r in H.
    pose proof (last_close_rows t hist) as H'. simpl in H'.
    destruct (last (filter (fun r => Ticker r = t) hist)); congruence.
Qed.

(** ** Failures of the price chart *)

(** X14. The price chart is produced exactly when the ticker it resolves
    has rows in the historical frame: AAPL for an empty selection, else the
    ticker of the first selected row, which has to be a row of the
    frame. *)
Theorem candlestick_produced_iff (selection : list Z) data hist :
  is_ok (candlestick selection data hist) = true <->
  match selection with
  | [] => filter (fun r => Ticker r = "AAPL") hist <> []
  | i :: _ =>
      exists p, loc data i = Ok p /\
                filter (fun r => Ticker r = ticker p) hist <> []
  end.
Proof.
  unfold candlestick, loc_cell, loc_ticker.
  destruct selection as [|i rest]; simpl.
  - by destruct (filter _ hist).
  - destruct (loc data i) as [p|e]; simpl.
    + split.
      * intros H. exists p. split; [done|].
        by destruct (filter (fun r => Ticker r = ticker p) hist).
      * intros (p' & [= <-] & H).
        by destruct (filter (fun r => Ticker r = ticker p) hist).
    + split; [done | by intros (p' & [=] & _)].
Qed.

(** X15. When the price chart is not produced the exception is a
    [KeyError]: a selected row that is not in the frame, or a ticker
    without historical rows. *)
Theorem candlestick_raises_KeyError (selection : list Z) data hist (e : exn) :
  candlestick selection data hist = Raise e -> e = KeyError.
Proof.
  unfold candlestick, loc_cell, loc_ticker, loc.
  destruct selection as [|i rest]; simpl.
  - destruct (filter _ hist); simpl; congruence.
  - destruct (decide (0 <= i)); simpl; [|congruence].
    destruct (data !! Z.to_nat i) as [p|]; simpl; [|congruence].
    destruct (filter _ hist); simpl; congruence.
Qed.

(** X16. A price chart that is produced has at least one candle, and its
    five columns have one entry per historical row of the ticker. *)
Theorem candlestick_columns (selection : list Z) data hist
    (fig : CandlestickFigure) :
  candlestick selection data hist = Ok fig ->
  trace_x fig <> [] /\
  length (trace_open fig) = length (trace_x fig) /\
  length (trace_high fig) = length (trace_x fig) /\
  length (trace_low fig) = length (trace_x fig) /\
  length (trace_close fig) = length (trace_x fig).
Proof.
  unfold candlestick. intros H.
  destruct (match selection with
            | [] => Ok ("AAPL", "Apple")
            | index :: _ =>
                t ← loc_cell data index ticker;
                c ← loc_cell data index company;
                Ok (t, c)
            end) as [sel|e]; simpl in H; [|done].
  unfold loc_ticker in H.
  destruct (filter (fun r => Ticker r = sel.1) hist) as [|r rows];
    simpl in H; [done|].
  injection H as <-. simpl. by rewrite !length_fmap.
Qed.

End History.

Section Startup.
Context {F64T : Float64} {F64 : Float64Ops}.

Implicit Types (data : list Position) (hist : list HistRow).

(** ** [mapM] over computations that may raise *)

Lemma mapM_Ok {A B} (f : A -> Result B) (l : list A) (ks : list B) :
  mapM f l = Ok ks <-> Forall2 (fun x k => f x = Ok k) l ks.
Proof.
  revert ks. induction l as [|x l IH]; intros ks; simpl.
  - split; [intros [= <-]; constructor | by intros ->%Forall2_nil_inv_l].
  - destruct (f x) as [y|e] eqn:Hx; simpl.
    + destruct (mapM f l) as [k|e] eqn:Hl; simpl.
      * split.
        -- intros [= <-]. constructor; [done | by apply IH].
        -- intros (y' & k' & Hy & Hk & ->)%Forall2_cons_inv_l.
           apply IH in Hk. simpl in Hy.
           assert (y' = y) as -> by congruence.
           assert (k' = k) as -> by congruence. reflexivity.
      * split; [done|].
        intros (y' & k' & _ & Hk & _)%Forall2_cons_inv_l.
        by apply IH in Hk.
    + split; [done|].
      intros (y' & k' & Hy & _)%Forall2_cons_inv_l. simpl in Hy. congruence.
Qed.

Lemma mapM_Raise {A B} (f : A -> Result B) (l : list A) (e : exn) :
  mapM f l = Raise e -> exists x, x ∈ l /\ f x = Raise e.
Proof.
  induction l as [|x l IH]; simpl; [done|].
  destruct (f x) as [y|e'] eqn:Hx; simpl.
  - destruct (mapM f l) as [k|e'']; simpl; [done|].
    intros [= ->]. destruct IH as (x' & Hin & Hx'); [done|].
    exists x'. split; [by apply elem_of_cons; right | done].
  - intros [= ->]. exists x. split; [by apply elem_of_cons; left | done].
Qed.

Lemma mapM_is_ok {A B} (f : A -> Result B) (l : list A) :
  is_ok (mapM f l) = true <-> Forall (fun x => is_ok (f x) = true) l.
Proof.
  induction l as [|x l IH]; simpl; [by split; [constructor|]|].
  rewrite Forall_cons, <- IH.
  destruct (f x); simpl; [|by split; [|intros []]].
  destruct (mapM f l); simpl; by split; [|intros []].
Qed.

(** ** The frame at start-up *)

(** The frame is built from the eight last closes. *)
Lemma initial_summary_data_Ok hist data :
  initial_summary_data hist = Ok data ->
  length data = 8%nat /\
  ticker <$> data = EQUITY_LIST /\
  company <$> data = EQUITIES.*2 /\
  quantity <$> data = initial_quantity /\
  action <$> data = initial_action /\
  Forall (fun p =>
            last_close (ticker p) hist = Ok (price p) /\
            value p = f64_mul (f64_of_int (quantity p)) (price p) /\
            notes p = "")
         data.
Proof.
  unfold initial_summary_data.
  destruct (mapM (fun t => last_close t hist) EQUITY_LIST)
    as [prices|e] eqn:Hprices; simpl; [|done].
  apply mapM_Ok in Hprices. unfold EQUITY_LIST, EQUITIES in Hprices.
  simpl in Hprices.
  repeat match type of Hprices with
         | Forall2 _ (_ :: _) _ =>
             let p := fresh "p" in
             let H := fresh "Hclose" in
             apply Forall2_cons_inv_l in Hprices
               as (p & ? & H & Hprices & ->)
         end.
  apply Forall2_nil_inv_l in Hprices as ->.
  intros [= <-]. simpl.
  do 5 (split; [reflexivity|]).
  repeat constructor; simpl; done.
Qed.

(** X17. The start-up frame is built exactly when each of the eight
    equities has a row in the historical frame; when one has none, building
    it raises [KeyError]. *)
Theorem initial_frame_built_iff hist :
  (is_ok (initial_summary_data hist) = true <->
   forall t, t ∈ EQUITY_LIST -> filter (fun r => Ticker r = t) hist <> []) /\
  (forall e, initial_summary_data hist = Raise e -> e = KeyError).
Proof.
  unfold initial_summary_data. split.
  - transitivity
      (is_ok (mapM (fun t => last_close t hist) EQUITY_LIST) = true).
    { by destruct (mapM _ EQUITY_LIST). }
    rewrite mapM_is_ok, Forall_forall.
    split; intros H t Ht; apply last_close_is_ok; by apply H.
  - intros e.
    destruct (mapM (fun t => last_close t hist) EQUITY_LIST)
      as [prices|e'] eqn:Hprices; simpl; [done|].
    intros [= ->]. apply mapM_Raise in Hprices as (t & _ & Ht).
    pose proof (last_close_rows t hist) as H. simpl in H.
    destruct (last (filter (fun r => Ticker r = t) hist)); congruence.
Qed.

(** X18. The start-up frame has one row per equity, in the order of
    [EQUITIES], with the configured quantities and actions and empty notes;
    each row's price is the last close of its ticker and each row's value
    is its quantity times its price, so the [value] column is
    [get_value_series] of the frame. *)
Theorem initial_frame_rows hist data :
  initial_summary_data hist = Ok data ->
  ticker <$> data = EQUITY_LIST /\
  company <$> data = EQUITIES.*2 /\
  quantity <$> data = initial_quantity /\
  action <$> data = initial_action /\
  Forall (fun p => last_close (ticker p) hist = Ok (price p) /\ notes p = "")
         data /\
  value <$> data = get_value_series data.
Proof.
  intros (_ & Ht & Hc & Hq & Ha & Hall)%initial_summary_data_Ok.
  do 4 (split; [done|]). split.
  - eapply Forall_impl; [exact Hall|]. by intros p (? & _ & ?).
  - unfold get_value_series. apply list_fmap_ext.
    intros i p Hp. by destruct (Forall_lookup_1 _ _ _ _ Hall Hp) as (_ & ? & _).
Qed.

Lemma candlestick_ok_row (i : Z) (rest : list Z) data hist p :
  loc data i = Ok p ->
  is_ok (last_close (ticker p) hist) = true ->
  is_ok (candlestick (i :: rest) data hist) = true.
Proof.
  intros Hp Hok%last_close_is_ok. unfold candlestick, loc_cell, loc_ticker.
  rewrite Hp. simpl.
  by destruct (filter (fun r => Ticker r = ticker p) hist).
Qed.

(** X19. Once the start-up frame is built from the historical frame, the
    price chart is produced for the empty selection and for every selection
    of one of the eight rows, and this stays so after any edits. *)
Theorem initial_frame_charts hist w (events : list TableEditEvent)
    (selection : list Z) :
  initial_summary_data hist = Ok (summary_data w) ->
  match selection with
  | [] => True
  | i :: _ => 0 <= i < 8
  end ->
  is_ok (candlestick selection (summary_data (run_edits events w)) hist)
  = true.
Proof.
  intros (Hlen & Ht & _ & _ & _ & Hall)%initial_summary_data_Ok Hsel.
  rewrite (candlestick_columns_only selection (summary_data w))
    by by apply run_edits_column.
  destruct selection as [|i rest].
  - destruct (summary_data w) as [|p0 data'] eqn:Hdata; [done|].
    apply Forall_cons in Hall as [(Hclose & _) _].
    injection Ht as Ht0 _. unfold candlestick. simpl.
    assert (Hok : is_ok (last_close "AAPL" hist) = true)
      by by rewrite <- Ht0, Hclose.
    apply last_close_is_ok in Hok. unfold loc_ticker.
    by destruct (filter (fun r => Ticker r = "AAPL") hist).
  - pose proof (loc_in_range (summary_data w) i) as Hok.
    rewrite Hlen, bool_decide_eq_true_2 in Hok by lia.
    destruct (loc (summary_data w) i) as [p|] eqn:Hp; [|done].
    apply (candlestick_ok_row _ _ _ _ p); [done|].
    apply loc_Ok in Hp as [_ Hp].
    destruct (Forall_lookup_1 _ _ _ _ Hall Hp) as (-> & _). done.
Qed.

End Startup.

(** * The further properties on the small dashboard *)

(** X1 at work: a quantity edit on row 9 of a frame of eight rows. *)
Lemma edit_exception_leaves_world_witness :
  (handle_cell_edit (edit "quantity" 9 (CInt 5)) demo_world).1
    = Raise KeyError /\
  (handle_cell_edit (edit "quantity" 9 (CInt 5)) demo_world).2 = demo_world.
Proof.
  split; [reflexivity|].
  exact (proj1 (edit_exception_leaves_world
                  (edit "quantity" 9 (CInt 5)) demo_world KeyError eq_refl)).
Defined.

(** X2 at work: row 8 is past the last row; the text is never looked at. *)
Lemma quantity_edit_row_out_of_frame_witness :
  ~ (0 <= 8 < Z.of_nat (length (summary_data demo_world))) /\
  handle_cell_edit (edit "quantity" 8 (CStr "many")) demo_world
    = (Raise KeyError, demo_world).
Proof.
  assert (H : ~ (0 <= 8 < Z.of_nat (length (summary_data demo_world)))).
  { intros [_ H]. vm_compute in H. discriminate H. }
  split; [exact H|].
  exact (quantity_edit_row_out_of_frame
           (edit "quantity" 8 (CStr "many")) demo_world eq_refl H).
Defined.

(** X3 at work: the quantity cell of row 0 cleared. *)
Lemma quantity_edit_not_a_number_witness :
  0 <= 0 < Z.of_nat (length (summary_data demo_world)) /\
  handle_cell_edit (edit "quantity" 0 CNone) demo_world
    = (Raise TypeError, demo_world).
Proof.
  assert (H : 0 <= 0 < Z.of_nat (length (summary_data demo_world))).
  { split; vm_compute; [discriminate | reflexivity]. }
  split; [exact H|].
  exact (quantity_edit_not_a_number
           (edit "quantity" 0 CNone) demo_world eq_refl H (or_introl eq_refl)).
Defined.

(** X7 at work: three events that leave the counter at 0. *)
Lemma counter_unchanged_chart_unchanged_witness :
  patches (run_edits idle_edits demo_world) = patches demo_world /\
  patch_log (run_edits idle_edits demo_world) = patch_log demo_world /\
  (portfolio_distribution 1 (run_edits idle_edits demo_world)).1
  = (portfolio_distribution 0 demo_world).1.
Proof.
  split; [reflexivity|].
  destruct (counter_unchanged_chart_unchanged idle_edits demo_world 1 0
              eq_refl) as (Hlog & _ & Hfig).
  split; [exact Hlog | exact Hfig].
Defined.

(** X9 at work: AAPL edited to 100 shares and MSFT to 7, in both orders. *)
Lemma edits_on_different_rows_commute_witness :
  let event1 := edit "quantity" 0 (CInt 100) in
  let event2 := edit "quantity" 1 (CInt 7) in
  ev_row event1 <> ev_row event2 /\
  summary_data (dispatch event2 (dispatch event1 demo_world))
  = summary_data (dispatch event1 (dispatch event2 demo_world)) /\
  patches (dispatch event2 (dispatch event1 demo_world))
  = patches (dispatch event1 (dispatch event2 demo_world)).
Proof.
  intros event1 event2.
  assert (H : ev_row event1 <> ev_row event2) by discriminate.
  split; [exact H|].
  exact (edits_on_different_rows_commute event1 event2 demo_world H).
Defined.

(** X10 at work: AAPL edited to 10 shares, other edits, then AAPL edited to
    100 shares. *)
Lemma last_quantity_edit_decides_witness :
  f64_int_fits 100 = true /\
  loc_cell (summary_data demo_world) 0 price = Ok 11.25%float /\
  loc_cell
    (summary_data
       (run_edits (demo_edits ++ [edit "quantity" 0 (CInt 100)]) demo_world))
    0 value
  = Ok 1125%float.
Proof.
  assert (Hfits : f64_int_fits 100 = true) by reflexivity.
  split; [exact Hfits|]. split; [reflexivity|].
  exact (last_quantity_edit_decides demo_edits
           (edit "quantity" 0 (CInt 100)) demo_world 100 11.25%float
           eq_refl eq_refl Hfits eq_refl).
Defined.

(** X12 at work: the allocation chart before and after AAPL is edited to
    100 shares. *)
Lemma allocation_after_quantity_edit_witness :
  f64_int_fits 100 = true /\
  loc_cell (summary_data demo_world) 0 price = Ok 11.25%float /\
  exists fig fig',
    (portfolio_distribution 0 demo_world).1 = Ok fig /\
    (portfolio_distribution 1
       (dispatch (edit "quantity" 0 (CInt 100)) demo_world)).1 = Ok fig' /\
    pie_values fig' = <[0%nat := 1125%float]> (pie_values fig) /\
    pie_names fig' = pie_names fig.
Proof.
  assert (Hfits : f64_int_fits 100 = true) by reflexivity.
  split; [exact Hfits|]. split; [reflexivity|].
  exact (allocation_after_quantity_edit
           (edit "quantity" 0 (CInt 100)) demo_world 100 0 1 11.25%float
           eq_refl eq_refl Hfits eq_refl).
Defined.

(** X14 at work: the chart of the second row is produced, so the row and its
    historical rows are there. *)
Lemma candlestick_produced_iff_witness :
  is_ok (candlestick [1] (summary_data demo_world) demo_history) = true /\
  exists p,
    loc (summary_data demo_world) 1 = Ok p /\
    filter (fun r => Ticker r = ticker p) demo_history <> [].
Proof.
  split; [reflexivity|].
  exact (proj1 (candlestick_produced_iff
                  [1] (summary_data demo_world) demo_history) eq_refl).
Defined.

(** X15 at work: MSFT selected with a historical frame of AAPL only. *)
Lemma candlestick_raises_KeyError_witness :
  exists e,
    candlestick [1] (summary_data demo_world) aapl_history = Raise e /\
    e = KeyError.
Proof.
  exists KeyError. split; [reflexivity|].
  exact (candlestick_raises_KeyError
           [1] (summary_data demo_world) aapl_history KeyError eq_refl).
Defined.

(** X16 at work: the chart of MSFT has two candles. *)
Lemma candlestick_columns_witness :
  let fig :=
    candlestick_figure "MSFT" "Microsoft"
      [hist_row "MSFT" 1 19 20.5 19 20; hist_row "MSFT" 2 20 21.5 20 21]%float
  in
  candlestick [1] (summary_data demo_world) demo_history = Ok fig /\
  trace_x fig <> [] /\
  length (trace_open fig) = length (trace_x fig) /\
  length (trace_high fig) = length (trace_x fig) /\
  length (trace_low fig) = length (trace_x fig) /\
  length (trace_close fig) = length (trace_x fig).
Proof.
  intros fig. split; [reflexivity|].
  exact (candlestick_columns
           [1] (summary_data demo_world) demo_history fig eq_refl).
Defined.

(** X17 at work: [demo_history] has rows for every equity; with the rows of
    AAPL only the frame is not built. *)
Lemma initial_frame_built_iff_witness :
  (forall t, t ∈ EQUITY_LIST ->
             filter (fun r => Ticker r = t) demo_history <> []) /\
  exists e, initial_summary_data aapl_history = Raise e /\ e = KeyError.
Proof.
  split.
  - exact (proj1 (proj1 (initial_frame_built_iff demo_history)) eq_refl).
  - exists KeyError. split; [reflexivity|].
    exact (proj2 (initial_frame_built_iff aapl_history) KeyError eq_refl).
Defined.

(** X18 at work on [demo_history]. *)
Lemma initial_frame_rows_witness :
  initial_summary_data demo_history = Ok (summary_data demo_world) /\
  ticker <$> summary_data demo_world = EQUITY_LIST /\
  quantity <$> summary_data demo_world = initial_quantity /\
  value <$> summary_data demo_world
  = get_value_series (summary_data demo_world).
Proof.
  split; [reflexivity|].
  destruct (initial_frame_rows demo_history (summary_data demo_world) eq_refl)
    as (Ht & _ & Hq & _ & _ & Hv).
  split; [exact Ht|]. split; [exact Hq | exact Hv].
Defined.

(** X19 at work: the chart of the last row after some edits. *)
Lemma initial_frame_charts_witness :
  initial_summary_data demo_history = Ok (summary_data demo_world) /\
  is_ok (candlestick [7] (summary_data (run_edits demo_edits demo_world))
           demo_history)
  = true.
Proof.
  split; [reflexivity|].
  apply (initial_frame_charts demo_history demo_world demo_edits [7]).
  - reflexivity.
  - split; vm_compute; [discriminate | reflexivity].
Defined.
